(** * AWS RAG agent: the Planner/Synthesizer pipeline and its plan validator

    A shallow embedding of

      - [schemas/planner_schema.py]  (the [PlannerPlan] model),
      - [agents/planner.py]          ([initialize_planner_agent], [safe_validate_plan]),
      - [agents/synthesizer.py]      ([initialize_synthesizer_agent]),
      - [main.py]                    ([setup_orchestrator], [run_agentic_rag]).

    Python values are the values a parsed JSON document can hold; dictionaries
    with string keys are finite maps; logging and printing are recorded as a
    list of events; exceptions are an explicit outcome.  A string is held as
    the bytes of its UTF-8 form. *)

From Stdlib Require Import ZArith.
From stdpp Require Import base option list strings pretty gmap fin_maps.

(** ** Python values *)

(** What [json.loads] can produce.  A float is carried by its literal: the
    program never computes with one. *)
#[local] Set Warnings "-register-all".
Inductive PyValue : Type :=
| PyNone
| PyBool (b : bool)
| PyInt (n : Z)
| PyFloat (lit : string)
| PyStr (s : string)
| PyList (items : list PyValue)
| PyDict (d : gmap string PyValue).

(** A [Dict[str, Any]]. *)
Abbreviation PyMapping := (gmap string PyValue).

(** ** Exceptions, events and the monad of a run *)

Inductive loc_item : Type :=
| LocKey (k : string)
| LocIdx (i : nat).

(** One entry of [ValidationError.errors()]: the error type, where it is and
    the input that was refused there. *)
Record ErrorDetails : Type := mkError {
  err_type : string;
  err_loc : list loc_item;
  err_input : PyValue
}.

Inductive exn : Type :=
| ValidationError (errors : list ErrorDetails)
| EnvironmentError (msg : string)
| RuntimeError (msg : string) (cause : exn)
| Exception (cls msg : string)
| KeyboardInterrupt.

(** [except Exception] catches every class but the [BaseException]-only ones. *)
Definition is_Exception (e : exn) : bool :=
  match e with
  | KeyboardInterrupt => false
  | _ => true
  end.

Inductive level : Type := INFO | WARNING | ERROR | CRITICAL.

Inductive event : Type :=
| Log (name : string) (lvl : level) (msg : string)
| Stdout (text : string).

Inductive outcome (A : Type) : Type :=
| Normal (a : A)
| Raises (e : exn).
Arguments Normal {A} a.
Arguments Raises {A} e.

(** A computation emits events, then returns or raises. *)
Definition Run (A : Type) : Type := (list event * outcome A)%type.

Definition events {A} (m : Run A) : list event := m.1.
Definition result {A} (m : Run A) : outcome A := m.2.

#[global] Instance Run_ret : MRet Run := λ A a, ([], Normal a).

#[global] Instance Run_bind : MBind Run := λ A B f m,
  match m.2 with
  | Normal a => (m.1 ++ (f a).1, (f a).2)
  | Raises e => (m.1, Raises e)
  end.

Definition raise {A} (e : exn) : Run A := ([], Raises e).
Definition emit (ev : event) : Run unit := ([ev], Normal tt).
Definition lift {A} (o : outcome A) : Run A := ([], o).

(** [try: body / except ...: handler].  The handler answers [None] for an
    exception no [except] clause matches, which then propagates. *)
Definition try_except {A} (body : Run A) (handler : exn → option (Run A)) : Run A :=
  match body.2 with
  | Normal a => body
  | Raises e =>
      match handler e with
      | Some h => (body.1 ++ h.1, h.2)
      | None => body
      end
  end.

(** Python's formatting and output primitives the program calls but does not
    define.  [ValidationError.json()] serializes the errors with their inputs
    and raises when an input cannot be serialized; standard output raises on
    a text its encoding lacks. *)
Class PyFormat : Type := {
  py_repr : PyValue → string;                       (* repr(v) *)
  ve_json : list ErrorDetails → outcome string;     (* ValidationError.json() *)
  ve_str : list ErrorDetails → string;              (* str(ValidationError) *)
  stdout_encodable : string → bool;                 (* sys.stdout can encode the text *)
  stdout_error : string → string                    (* the text of its UnicodeEncodeError *)
}.

(** [str(v)]: a string is itself, every other JSON value prints as its repr. *)
Definition py_str `{PyFormat} (v : PyValue) : string :=
  match v with
  | PyStr s => s
  | _ => py_repr v
  end.

(** [str(e)] for an exception built from one message. *)
Definition exn_str `{PyFormat} (e : exn) : string :=
  match e with
  | ValidationError errs => ve_str errs
  | EnvironmentError msg => msg
  | RuntimeError msg _ => msg
  | Exception _ msg => msg
  | KeyboardInterrupt => EmptyString
  end.

(** Text of ASCII characters only, which every standard output encodes. *)
Fixpoint is_ascii (text : string) : bool :=
  match text with
  | EmptyString => true
  | String c rest => Nat.ltb (Ascii.nat_of_ascii c) 128 && is_ascii rest
  end.

Definition can_print `{PyFormat} (text : string) : bool :=
  is_ascii text || stdout_encodable text.

(** [print(text)]: the line is written, or nothing is and
    [UnicodeEncodeError] is raised. *)
Definition py_print `{PyFormat} (text : string) : Run unit :=
  if can_print text
  then emit (Stdout text)
  else raise (Exception "UnicodeEncodeError" (stdout_error text)).

(** ** schemas/planner_schema.py *)

Record PlannerPlan : Type := mkPlan {
  query_type : string;
  sub_queries : list string
}.

(** Field validation of a pydantic (v2) model: every field is checked and all
    mismatches are collected.  Among JSON values a [str] field takes a string
    only (no number, no boolean), and a [List[str]] field a list only (no
    string, no dict), each item checked as a [str]. *)
Definition field_check (A : Type) : Type := (list ErrorDetails * option A)%type.

(** A [str] field. *)
Definition validate_str (loc : list loc_item) (v : PyValue) : field_check string :=
  match v with
  | PyStr s => ([], Some s)
  | _ => ([mkError "string_type" loc v], None)
  end.

(** The items of a [List[str]] field, from index [i] on. *)
Fixpoint validate_items (loc : list loc_item) (i : nat) (items : list PyValue)
  : field_check (list string) :=
  match items with
  | [] => ([], Some [])
  | v :: rest =>
      let '(e1, s) := validate_str (loc ++ [LocIdx i]) v in
      let '(e2, ss) := validate_items loc (S i) rest in
      (e1 ++ e2,
       match s, ss with
       | Some s, Some ss => Some (s :: ss)
       | _, _ => None
       end)
  end.

(** A [List[str]] field. *)
Definition validate_list_str (loc : list loc_item) (v : PyValue) : field_check (list string) :=
  match v with
  | PyList items => validate_items loc 0 items
  | _ => ([mkError "list_type" loc v], None)
  end.

(** A required field, [Field(...)].  The input of the error for a missing
    field is the whole mapping. *)
Definition required {A} (name : string) (raw_data : PyMapping)
    (validate : list loc_item → PyValue → field_check A) : field_check A :=
  match raw_data !! name with
  | Some v => validate [LocKey name] v
  | None => ([mkError "missing" [LocKey name] (PyDict raw_data)], None)
  end.

(** The constructor call on the unpacked mapping, [PlannerPlan] applied to the
    keyword arguments of [raw_data]: keys other than the two fields are ignored. *)
Definition PlannerPlan_init (raw_data : PyMapping) : outcome PlannerPlan :=
  let '(e1, qt) := required "query_type" raw_data validate_str in
  let '(e2, sq) := required "sub_queries" raw_data validate_list_str in
  match qt, sq with
  | Some qt, Some sq => Normal (mkPlan qt sq)
  | _, _ => Raises (ValidationError (e1 ++ e2))
  end.

(** [plan.model_dump()]: the field mapping of a plan. *)
Definition model_dump (plan : PlannerPlan) : PyMapping :=
  {[ "query_type" := PyStr (query_type plan);
     "sub_queries" := PyList (PyStr <$> sub_queries plan) ]}.

(** ** agents/planner.py: the validation utility *)

Definition PlannerAgent : string := "PlannerAgent".

(** The message of the error record is built, [ve.json()] called, inside the
    first handler: what that call raises is caught by no clause. *)
Definition safe_validate_plan `{PyFormat} (raw_data : PyMapping) : Run (option PlannerPlan) :=
  try_except
    (plan ← lift (PlannerPlan_init raw_data);
     emit (Log PlannerAgent INFO
             ("Validation Success: Query classified as '" +:+ query_type plan +:+ "'"));;
     mret (Some plan))
    (λ e,
       match e with
       | ValidationError errs =>
           Some (report ← lift (ve_json errs);
                 emit (Log PlannerAgent ERROR
                         ("Schema Mismatch: The LLM returned incompatible JSON. Errors: "
                            +:+ report));;
                 mret None)
       | _ =>
           if is_Exception e
           then Some (emit (Log PlannerAgent ERROR
                              ("Unexpected error during plan validation: " +:+ exn_str e));;
                      mret None)
           else None
       end).

(** ** The agent framework, as the program uses it *)

Record LiteLlm : Type := mkLiteLlm {
  llm_model : string;
  api_key : string
}.

(** The only schema the program passes as [output_schema]. *)
Inductive Schema : Type := PlannerPlanSchema.

(** The keyword arguments the program gives to [Agent(...)]. *)
Record Agent : Type := mkAgent {
  name : string;
  model : LiteLlm;
  description : string;
  instruction : string;
  output_schema : option Schema;
  tools : list string;
  output_key : string
}.

Record SequentialAgent : Type := mkSequentialAgent {
  seq_name : string;
  sub_agents : list Agent;
  seq_description : string
}.

Record Session : Type := mkSession {
  state : PyMapping
}.

(** What the program calls in [google.adk] without defining it: the agent
    constructor (which returns nothing or rejects a configuration), the
    in-memory session service and the runner.  The service is a value threaded through the
    calls that mutate it.  [create_session] and [get_session] take the
    application name, the user id and the session id; [run_async] takes the
    root agent and application name of its runner, then the user id, the
    session id and the text of the new message. *)
Class ADK : Type := {
  SessionService : Type;
  InMemorySessionService : SessionService;
  create_session : string → string → string → SessionService → SessionService * outcome unit;
  get_session : string → string → string → SessionService → option Session;
  Agent_init : Agent → outcome unit;
  run_async : SequentialAgent → string → string → string → string → SessionService
              → SessionService * outcome unit
}.

(** ** Process environment *)

(** [load_dotenv()]: variables of the [.env] file are added to [os.environ];
    a variable already set keeps its value. *)
Definition load_dotenv (dotenv environ : gmap string string) : gmap string string :=
  environ ∪ dotenv.

Definition os_getenv (key : string) (environ : gmap string string) : option string :=
  environ !! key.

(** Truth value of [api_key] in [if not api_key]: [None] and the empty string
    are false. *)
Definition truthy (v : option string) : bool :=
  match v with
  | Some s => negb (bool_decide (s = EmptyString))
  | None => false
  end.

(** The newline character. *)
Definition nl : string := String (Ascii.ascii_of_nat 10) EmptyString.

Definition retriever_tool_name : string := "retriever_tool".

Section Agents.
Context `{PyFormat} `{ADK}.

(** *** agents/planner.py *)

(** The instruction texts are written line by line; the lines are joined
    by the newline character. *)
Definition planner_instruction : string :=
  String.concat nl
  [ "### ROLE";
    "You are a Strategic Planning Agent for an AWS RAG system. [cite: 58]";
    EmptyString;
    "### TASKS";
    "1. CLASSIFY: Assign the query to exactly one category: 'comparison', 'definition', 'recommendation', or 'uses'. [cite: 61]";
    "2. DECOMPOSE: Generate 2-3 specific sub-queries optimized for semantic search in an AWS RAG guide. [cite: 63, 64]";
    EmptyString;
    "### CONSTRAINTS";
    "- Output ONLY valid JSON matching the provided schema.";
    "- No conversational filler or preamble.";
    "- If the query is unrelated to RAG on AWS, categorize as 'general' and suggest a refusal search term." ].

Definition initialize_planner_agent (dotenv environ : gmap string string) : Run Agent :=
  let environ := load_dotenv dotenv environ in
  let api_key := os_getenv "GROQ_API_KEY" environ in
  if negb (truthy api_key) then
    emit (Log PlannerAgent CRITICAL "GROQ_API_KEY is missing from environment variables.");;
    raise (EnvironmentError "GROQ_API_KEY not found. Ensure your .env file is configured.")
  else
    try_except
      (emit (Log PlannerAgent INFO "Configuring LLM and output schema for Planner...");;
       let planner := {|
         name := "planner_agent_v1";
         model := mkLiteLlm "groq/llama-3.3-70b-versatile" (default EmptyString api_key);
         description := "Strategist responsible for query classification and decomposition to guide the Retrieval Agent.";
         instruction := planner_instruction;
         output_schema := Some PlannerPlanSchema;
         tools := [];
         output_key := "planner_plan"
       |} in
       lift (Agent_init planner);;
       emit (Log PlannerAgent INFO "Planner Agent successfully initialized.");;
       mret planner)
      (λ e,
         if is_Exception e
         then Some (emit (Log PlannerAgent ERROR
                            ("Failed to initialize Planner Agent component: " +:+ exn_str e));;
                    raise (RuntimeError
                             "Agent initialization aborted due to configuration error." e))
         else None).

(** *** agents/synthesizer.py *)

Definition SynthesizerAgent : string := "SynthesizerAgent".

Definition synthesizer_instruction : string :=
  String.concat nl
  [ "### ROLE";
    "You are a Technical Synthesis Expert for AWS Prescriptive Guidance. Your goal is to provide cited, accurate answers based ONLY on retrieved text.";
    EmptyString;
    "### EXECUTION PROTOCOL";
    "1. ANALYZE PLAN: Extract the 'sub_queries' list from the {planner_plan} object.";
    "2. RETRIEVE DATA: You MUST call the 'retriever_tool' using that list of sub_queries. Do not attempt to answer from memory.";
    "3. SYNTHESIZE: Review the 'retriever_content' returned by the tool.";
    EmptyString;
    "### RESPONSE FORMATTING RULES";
    "- STRUCTURE: Use clear sections and bullet points for readability[cite: 32, 81].";
    "- CITATIONS: Every factual claim MUST be followed by a citation, e.g., '(Source: [Section Name])'[cite: 29, 83].";
    "- GROUNDING: If the tool returns no data or the data does not answer the query, you MUST state: 'This information is not available in the provided AWS RAG guide'.";
    "- NO HALLUCINATIONS: Never use external technical knowledge[cite: 30, 106]." ].

Definition initialize_synthesizer_agent (dotenv environ : gmap string string) : Run Agent :=
  let environ := load_dotenv dotenv environ in
  let api_key := os_getenv "GROQ_API_KEY" environ in
  if negb (truthy api_key) then
    emit (Log SynthesizerAgent CRITICAL
            "GROQ_API_KEY is missing. Synthesizer cannot function without LLM access.");;
    raise (EnvironmentError "GROQ_API_KEY not found in environment.")
  else
    try_except
      (emit (Log SynthesizerAgent INFO
               "Initializing Synthesizer Agent with tool-calling capabilities...");;
       let synthesizer := {|
         name := "synthesizer_agent_v1";
         model := mkLiteLlm "groq/llama-3.3-70b-versatile" (default EmptyString api_key);
         description := "A specialist that synthesizes retrieved document segments into structured, cited answers for the user.";
         instruction := synthesizer_instruction;
         output_schema := None;
         tools := [retriever_tool_name];
         output_key := "final_response"
       |} in
       lift (Agent_init synthesizer);;
       emit (Log SynthesizerAgent INFO
               "Synthesizer Agent successfully initialized with retriever_tool.");;
       mret synthesizer)
      (λ e,
         if is_Exception e
         then Some (emit (Log SynthesizerAgent ERROR
                            ("Critical error during Synthesizer Agent setup: " +:+ exn_str e));;
                    raise (RuntimeError "Synthesizer Agent failed to initialize." e))
         else None).

(** *** main.py *)

Definition MainRunner : string := "MainRunner".
Definition APP_NAME : string := "aws_rag_agent_team".
Definition SESSION_ID : string := "session_001".
Definition USER_ID : string := "user_001".

Definition setup_orchestrator (dotenv environ : gmap string string) : Run SequentialAgent :=
  planner ← initialize_planner_agent dotenv environ;
  synthesizer ← initialize_synthesizer_agent dotenv environ;
  mret {|
    seq_name := "AWSRagRootAgent";
    sub_agents := [planner; synthesizer];
    seq_description :=
      "Sequential pipeline for AWS RAG: Planning followed by Synthesized Answering."
  |}.

(** [s * n] on strings. *)
Fixpoint str_repeat (s : string) (n : nat) : string :=
  match n with
  | 0 => EmptyString
  | S n => s +:+ str_repeat s n
  end.

(** [state.get(key)] and [state.get(key, default)]. *)
Definition dict_get (key : string) (dflt : PyValue) (d : PyMapping) : PyValue :=
  default dflt (d !! key).

(** Part 4 of [run_agentic_rag], observability and final output: what is
    shown for the session fetched after the run.  A session object is
    true; its state, a dict, is true when it is not empty.  The prints are
    in no [try]: one that raises ends the function there. *)
Definition final_output (final_session : option Session) : Run unit :=
  match final_session with
  | Some session =>
      if bool_decide (state session ≠ ∅) then
        let state := state session in
        py_print (nl +:+ str_repeat "=" 50);;
        py_print "AGENTIC TRACE (OBSERVABILITY)";;
        py_print (str_repeat "-" 50);;
        py_print ("Planner Result: " +:+ py_str (dict_get "planner_plan" PyNone state));;
        py_print (str_repeat "=" 50 +:+ nl);;
        py_print "FINAL ANSWER:";;
        py_print (py_str (dict_get "final_response" (PyStr "No response generated.") state))
      else
        emit (Log MainRunner ERROR "Failed to retrieve final session state.")
  | None =>
      emit (Log MainRunner ERROR "Failed to retrieve final session state.")
  end.

Definition run_agentic_rag (dotenv environ : gmap string string) (query : string) : Run unit :=
  let session_service := InMemorySessionService in
  root_agent ← setup_orchestrator dotenv environ;
  let '(session_service, created) := create_session APP_NAME USER_ID SESSION_ID session_service in
  try_except
    (lift created;;
     emit (Log MainRunner INFO ("Session " +:+ SESSION_ID +:+ " initialized.")))
    (λ e,
       if is_Exception e
       then Some (emit (Log MainRunner WARNING
                          ("Session already exists or could not be created: " +:+ exn_str e)))
       else None);;
  py_print (nl +:+ "--- Starting Agentic Workflow ---" +:+ nl);;
  let '(session_service, ran) :=
    run_async root_agent APP_NAME USER_ID SESSION_ID query session_service in
  match ran with
  | Raises e =>
      if is_Exception e
      then emit (Log MainRunner ERROR ("Execution Error: " +:+ exn_str e))
      else raise e
  | Normal _ =>
      final_output (get_session APP_NAME USER_ID SESSION_ID session_service)
  end.

(** The end of the script: the query read from standard input is run, and
    what escapes [run_agentic_rag] is reported. *)
Definition main (dotenv environ : gmap string string) (query : string) : Run unit :=
  try_except
    (run_agentic_rag dotenv environ query)
    (λ e,
       match e with
       | KeyboardInterrupt => Some (py_print (nl +:+ "Process interrupted by user."))
       | _ => Some (py_print ("Fatal Startup Error: " +:+ exn_str e))
       end).

End Agents.

(** ** main.py: the script *)



Section Script.
Context `{PyFormat} `{ADK}.

(** The ingestion of [data_ingestion], which the script calls without
    defining it: from the name of the PDF file, a run. *)
Variable create_vector_store : string → Run unit.



End Script.

(** The refusal sentence of the GROUNDING rule in the Synthesizer's instruction. *)
Definition refusal_sentence : string :=
  "This information is not available in the provided AWS RAG guide".

(** ** Example instances *)

(** U+D800, a lone surrogate, as [json.loads] yields it for the escape
    [\ud800]: no valid UTF-8 holds it, and it is held here by the three
    bytes of the generalized form. *)
Definition lone_surrogate : string :=
  String (Ascii.ascii_of_nat 237)
    (String (Ascii.ascii_of_nat 160) (String (Ascii.ascii_of_nat 128) EmptyString)).

(** A surrogate in a text: the byte 237 followed by a byte from 160 on. *)
Fixpoint str_has_surrogate (text : string) : bool :=
  match text with
  | String a (String b _ as rest) =>
      (Nat.eqb (Ascii.nat_of_ascii a) 237 && Nat.leb 160 (Ascii.nat_of_ascii b))
      || str_has_surrogate rest
  | _ => false
  end.

Fixpoint has_surrogate (v : PyValue) : bool :=
  match v with
  | PyStr s => str_has_surrogate s
  | PyList items => existsb has_surrogate items
  | PyDict d =>
      map_fold (λ key v found, str_has_surrogate key || has_surrogate v || found) false d
  | _ => false
  end.

(** The repr of a value, strings in single quotes without escapes, the keys
    of a dict in the order of the map. *)
Fixpoint example_repr (v : PyValue) : string :=
  match v with
  | PyNone => "None"
  | PyBool true => "True"
  | PyBool false => "False"
  | PyInt n => pretty n
  | PyFloat lit => lit
  | PyStr s => "'" +:+ s +:+ "'"
  | PyList items => "[" +:+ String.concat ", " (example_repr <$> items) +:+ "]"
  | PyDict d =>
      "{" +:+ String.concat ", "
                (map_fold (λ key v shown, ("'" +:+ key +:+ "': " +:+ example_repr v) :: shown)
                   [] d)
          +:+ "}"
  end.

(** The serialization of validation errors for the examples: it raises on an
    input that holds a lone surrogate, and abbreviates the report. *)
Definition example_ve_json (errs : list ErrorDetails) : outcome string :=
  if existsb (λ err, has_surrogate (err_input err)) errs
  then Raises (Exception "ValueError" "Error serializing to JSON: invalid utf-8 sequence")
  else Normal ("[" +:+ pretty (length errs) +:+ " errors]").

(** A formatter for the examples below, with a standard output in UTF-8,
    which encodes every text but one holding a surrogate. *)
#[local] Instance example_format : PyFormat := {|
  py_repr := example_repr;
  ve_json := example_ve_json;
  ve_str errs := pretty (length errs) +:+ " validation errors for PlannerPlan";
  stdout_encodable text := negb (str_has_surrogate text);
  stdout_error _ := "'utf-8' codec can't encode character: surrogates not allowed"
|}.


(** Session services as a map from application, user and session ids to
    sessions, with a runner that leaves [final_state] as the state of the
    session it ran on and accepts every agent configuration. *)
Definition scripted_adk (final_state : PyMapping) : ADK := {|
  SessionService := gmap (string * string * string) Session;
  InMemorySessionService := ∅;
  create_session app user sid service :=
    (<[(app, user, sid) := mkSession ∅]> service, Normal tt);
  get_session app user sid service := service !! (app, user, sid);
  Agent_init _ := Normal tt;
  run_async _ app user sid _ service :=
    (<[(app, user, sid) := mkSession final_state]> service, Normal tt)
|}.

(** The same session services, with an agent constructor, a session creation
    and a runner that may fail: [init] answers for each configuration,
    [created] and [ran] are the outcomes of [create_session] and [run_async],
    and the runner leaves the session with [final_state], or without a
    session for [None]. *)
Definition faulty_adk (init : Agent → outcome unit) (created ran : outcome unit)
    (final_state : option PyMapping) : ADK := {|
  SessionService := gmap (string * string * string) Session;
  InMemorySessionService := ∅;
  create_session app user sid service :=
    (match created with
     | Normal _ => <[(app, user, sid) := mkSession ∅]> service
     | Raises _ => service
     end, created);
  get_session app user sid service := service !! (app, user, sid);
  Agent_init := init;
  run_async _ app user sid _ service :=
    (match final_state with
     | Some final_state => <[(app, user, sid) := mkSession final_state]> service
     | None => delete (app, user, sid) service
     end, ran)
|}.

(** An environment that holds the credential. *)
Definition example_environ : gmap string string := {[ "GROQ_API_KEY" := "gsk_example" ]}.

(** The planner as [initialize_planner_agent] configures it for a key. *)
Definition planner_with (key : string) : Agent := {|
  name := "planner_agent_v1";
  model := mkLiteLlm "groq/llama-3.3-70b-versatile" key;
  description := "Strategist responsible for query classification and decomposition to guide the Retrieval Agent.";
  instruction := planner_instruction;
  output_schema := Some PlannerPlanSchema;
  tools := [];
  output_key := "planner_plan"
|}.

(** The synthesizer as [initialize_synthesizer_agent] configures it for a key. *)
Definition synthesizer_with (key : string) : Agent := {|
  name := "synthesizer_agent_v1";
  model := mkLiteLlm "groq/llama-3.3-70b-versatile" key;
  description := "A specialist that synthesizes retrieved document segments into structured, cited answers for the user.";
  instruction := synthesizer_instruction;
  output_schema := None;
  tools := [retriever_tool_name];
  output_key := "final_response"
|}.

(** ** Vocabulary of the statements *)

(** The mapping holds exactly the two fields of [plan], well typed. *)
Definition is_plan_mapping (raw_data : PyMapping) (plan : PlannerPlan) : Prop :=
  raw_data !! "query_type" = Some (PyStr (query_type plan)) ∧
  raw_data !! "sub_queries" = Some (PyList (PyStr <$> sub_queries plan)).

(** The mismatches of a mapping with the two fields: one for a field that is
    missing or of the wrong type, and one for each item of the [sub_queries]
    list that is not a string. *)
Definition is_PyStr (v : PyValue) : bool :=
  match v with
  | PyStr _ => true
  | _ => false
  end.

Definition field_mismatches (raw_data : PyMapping) : nat :=
  (match raw_data !! "query_type" with
   | Some (PyStr _) => 0
   | _ => 1
   end) +
  (match raw_data !! "sub_queries" with
   | Some (PyList items) => length (filter (λ v, is_PyStr v = false) items)
   | _ => 1
   end).

(** The five categories the Planner's instruction names. *)
Definition categories : list string :=
  ["comparison"; "definition"; "recommendation"; "uses"; "general"].

(** * Properties of the plan validator *)

Lemma Run_bind_Normal {A B} (evs : list event) (a : A) (f : A → Run B) :
  (evs, Normal a) ≫= f = (evs ++ (f a).1, (f a).2).
Proof. reflexivity. Qed.

Lemma Run_bind_Raises {A B} (evs : list event) (e : exn) (f : A → Run B) :
  (evs, Raises e) ≫= f = (evs, Raises e).
Proof. reflexivity. Qed.

Lemma validate_items_strs loc i (l : list string) :
  validate_items loc i (PyStr <$> l) = ([], Some l).
Proof.
  revert i. induction l as [|s l IH]; intros i; simpl; [done|].
  by rewrite IH.
Qed.

Lemma validate_items_Some loc i items errs (l : list string) :
  validate_items loc i items = (errs, Some l) → items = PyStr <$> l.
Proof.
  revert i errs l. induction items as [|v items IH]; intros i errs l; simpl.
  - by intros [= _ <-].
  - destruct (validate_items loc (S i) items) as [e2 ss] eqn:Hrest.
    destruct v; simpl; try by intros [= _ ?].
    destruct ss as [ss|]; [|by intros [= _ ?]].
    intros [= _ <-]. simpl. f_equal. by eapply IH.
Qed.

Lemma PlannerPlan_init_Normal raw_data plan :
  PlannerPlan_init raw_data = Normal plan ↔ is_plan_mapping raw_data plan.
Proof.
  unfold PlannerPlan_init, is_plan_mapping, required, validate_list_str. split.
  - destruct (raw_data !! "query_type") as [[]|]; simpl;
      destruct (raw_data !! "sub_queries") as [[]|]; simpl; try done;
      try (by destruct (validate_items _ _ _) as [? []]).
    destruct (validate_items _ _ _) as [e2 [l|]] eqn:Hitems; [|done].
    intros [= <-]. simpl. by rewrite (validate_items_Some _ _ _ _ _ Hitems).
  - intros [-> ->]. simpl. rewrite validate_items_strs. by destruct plan.
Qed.

(** When the constructor builds a plan, the validator logs the success
    record and returns the plan. *)
Lemma safe_validate_plan_accepts `{PyFormat} raw_data plan :
  PlannerPlan_init raw_data = Normal plan →
  safe_validate_plan raw_data =
    ([Log PlannerAgent INFO
        ("Validation Success: Query classified as '" +:+ query_type plan +:+ "'")],
     Normal (Some plan)).
Proof. intros Hinit. unfold safe_validate_plan. by rewrite Hinit. Qed.

(** When the constructor raises a validation error, the validator logs the
    report and returns [None], or raises what the serialization of the
    report raised, with nothing logged. *)
Lemma safe_validate_plan_rejects `{PyFormat} raw_data errs :
  PlannerPlan_init raw_data = Raises (ValidationError errs) →
  safe_validate_plan raw_data =
    match ve_json errs with
    | Normal report =>
        ([Log PlannerAgent ERROR
            ("Schema Mismatch: The LLM returned incompatible JSON. Errors: " +:+ report)],
         Normal None)
    | Raises e => ([], Raises e)
    end.
Proof.
  intros Hinit. unfold safe_validate_plan. rewrite Hinit.
  unfold try_except. simpl. by destruct (ve_json errs).
Qed.

Lemma PlannerPlan_init_ValidationError raw_data e :
  PlannerPlan_init raw_data = Raises e → ∃ errs, e = ValidationError errs.
Proof.
  unfold PlannerPlan_init.
  destruct (required "query_type" raw_data validate_str) as [e1 [qt|]];
    destruct (required "sub_queries" raw_data validate_list_str) as [e2 [sq|]];
    intros [= <-]; by eexists.
Qed.

Lemma safe_validate_plan_Some `{PyFormat} raw_data plan :
  result (safe_validate_plan raw_data) = Normal (Some plan) ↔ is_plan_mapping raw_data plan.
Proof.
  rewrite <- PlannerPlan_init_Normal.
  destruct (PlannerPlan_init raw_data) as [plan'|e] eqn:Hinit.
  - rewrite (safe_validate_plan_accepts _ _ Hinit). split; unfold result; simpl; congruence.
  - destruct (PlannerPlan_init_ValidationError _ _ Hinit) as [errs ->].
    rewrite (safe_validate_plan_rejects _ _ Hinit).
    split; [|done]. by destruct (ve_json errs).
Qed.

Lemma is_plan_mapping_dump plan : is_plan_mapping (model_dump plan) plan.
Proof. unfold is_plan_mapping, model_dump. by simplify_map_eq. Qed.

(** C2. The code does not do what the claim says on the mapping that holds
    only a [query_type], a string with a lone surrogate.  It has no
    [sub_queries], so by the claim the validator returns the validation
    failure; no plan is returned indeed, but the failure value [None] is not
    returned either: the call raises. *)
Theorem safe_validate_plan_no_failure_value_on_lone_surrogate :
  let raw_data : PyMapping := {[ "query_type" := PyStr lone_surrogate ]} in
  (∀ plan, ¬ is_plan_mapping raw_data plan) ∧
  (∀ plan, result (safe_validate_plan raw_data) ≠ Normal (Some plan)) ∧
  result (safe_validate_plan raw_data) ≠ Normal None.
Proof.
  simpl. split; [|split].
  - intros plan [_ Hsq]. by simplify_map_eq.
  - intros plan [_ Hsq]%safe_validate_plan_Some. by simplify_map_eq.
  - by vm_compute.
Qed.

(** C3. The code does not do what the claim says on the same mapping, which
    misses [sub_queries]: the validation error of the constructor is caught,
    but the report of the error record is serialized with the refused input
    inside the handler, which raises [ValueError] on the lone surrogate; no
    clause catches it, nothing is logged and the exception leaves the
    validator. *)
Theorem safe_validate_plan_raises_on_lone_surrogate :
  let raw_data : PyMapping := {[ "query_type" := PyStr lone_surrogate ]} in
  raw_data !! "sub_queries" = None ∧
  PlannerPlan_init raw_data =
    Raises (ValidationError [mkError "missing" [LocKey "sub_queries"] (PyDict raw_data)]) ∧
  safe_validate_plan raw_data =
    ([], Raises (Exception "ValueError" "Error serializing to JSON: invalid utf-8 sequence")).
Proof. simpl. split; [by simplify_map_eq|]. split; by vm_compute. Qed.

(** C4, as stated, fails: a plan of category [definition] with no sub-query
    at all is accepted. *)
Lemma sub_queries_count_counterexample :
  ∃ plan,
    result (safe_validate_plan
              {[ "query_type" := PyStr "definition"; "sub_queries" := PyList [] ]})
      = Normal (Some plan) ∧
    query_type plan ≠ "general" ∧
    length (sub_queries plan) ≠ 2 ∧ length (sub_queries plan) ≠ 3 ∧
    sub_queries plan = [].
Proof. exists (mkPlan "definition" []). by repeat split. Qed.

(** C4, amended. The validator puts no bound on the number of sub-queries:
    an accepted plan has as many sub-queries as the input list has items, and
    for every category and every list of strings, of any length, the plan is
    accepted. *)
Theorem sub_queries_count_unconstrained `{PyFormat}
    (raw_data : PyMapping) (qt : string) (sq : list string) :
  (∀ plan, result (safe_validate_plan raw_data) = Normal (Some plan)
           → ∃ items, raw_data !! "sub_queries" = Some (PyList items) ∧
                      length (sub_queries plan) = length items) ∧
  ∃ plan, result (safe_validate_plan (model_dump (mkPlan qt sq))) = Normal (Some plan) ∧
          query_type plan = qt ∧ length (sub_queries plan) = length sq.
Proof.
  split.
  - intros plan [_ Hsq]%safe_validate_plan_Some.
    eexists. split; [done|]. by rewrite length_fmap.
  - exists (mkPlan qt sq). split; [|done].
    apply safe_validate_plan_Some, is_plan_mapping_dump.
Qed.

Lemma sub_queries_count_unconstrained_witness :
  ∃ items,
    ({[ "query_type" := PyStr "uses"; "sub_queries" := PyList [PyStr "bedrock"] ]} : PyMapping)
      !! "sub_queries" = Some (PyList items) ∧
    length (sub_queries (mkPlan "uses" ["bedrock"])) = length items.
Proof.
  eapply (sub_queries_count_unconstrained _ EmptyString []).
  apply safe_validate_plan_Some, (is_plan_mapping_dump (mkPlan "uses" ["bedrock"])).
Defined.

(** C5, as stated, fails: [technical], the first example in the field's own
    description, is accepted as a [query_type]. *)
Lemma query_type_closed_set_counterexample :
  ∃ plan,
    result (safe_validate_plan
              {[ "query_type" := PyStr "technical";
                 "sub_queries" := PyList [PyStr "a"; PyStr "b"] ]})
      = Normal (Some plan) ∧
    query_type plan ∉ categories.
Proof.
  exists (mkPlan "technical" ["a"; "b"]). split; [done|].
  unfold categories. simpl. intros Hin.
  repeat (apply elem_of_cons in Hin as [?|Hin]; [done|]).
  by apply elem_of_nil in Hin.
Qed.

(** C5, amended. The [query_type] of an accepted plan is the string the
    input holds under [query_type], and every string is accepted there: the
    five categories are asked of the model by the Planner's instruction only. *)
Theorem query_type_any_string `{PyFormat}
    (raw_data : PyMapping) (qt : string) (sq : list string) :
  (∀ plan, result (safe_validate_plan raw_data) = Normal (Some plan)
           → raw_data !! "query_type" = Some (PyStr (query_type plan))) ∧
  result (safe_validate_plan
            {[ "query_type" := PyStr qt; "sub_queries" := PyList (PyStr <$> sq) ]})
    = Normal (Some (mkPlan qt sq)).
Proof.
  split.
  - by intros plan [Hqt _]%safe_validate_plan_Some.
  - apply safe_validate_plan_Some, (is_plan_mapping_dump (mkPlan qt sq)).
Qed.

Lemma query_type_any_string_witness :
  ({[ "query_type" := PyStr "technical"; "sub_queries" := PyList [] ]} : PyMapping)
    !! "query_type" = Some (PyStr (query_type (mkPlan "technical" []))).
Proof.
  eapply (query_type_any_string _ EmptyString []).
  apply safe_validate_plan_Some, (is_plan_mapping_dump (mkPlan "technical" [])).
Defined.

(** C6. Validation is idempotent: the field mapping of a plan validates to
    that very plan, with the success record logged and nothing else. *)
Theorem safe_validate_plan_idempotent `{PyFormat} (plan : PlannerPlan) :
  safe_validate_plan (model_dump plan) =
    ([Log PlannerAgent INFO
        ("Validation Success: Query classified as '" +:+ query_type plan +:+ "'")],
     Normal (Some plan)).
Proof.
  pose proof (is_plan_mapping_dump plan) as Hinit.
  apply PlannerPlan_init_Normal in Hinit.
  unfold safe_validate_plan. rewrite Hinit. reflexivity.
Qed.

(** * Properties of the stage constructors *)

Lemma getenv_absent (dotenv environ : gmap string string) key :
  environ !! key = None → dotenv !! key = None →
  os_getenv key (load_dotenv dotenv environ) = None.
Proof.
  intros Henv Hfile. unfold os_getenv, load_dotenv.
  by apply lookup_union_None.
Qed.

(** Loading the [.env] file twice is loading it once. *)
Lemma load_dotenv_idempotent (dotenv environ : gmap string string) :
  load_dotenv dotenv (load_dotenv dotenv environ) = load_dotenv dotenv environ.
Proof.
  unfold load_dotenv. by rewrite <- (assoc_L (∪)), (idemp_L (∪)).
Qed.

(** C7. Without the [GROQ_API_KEY] credential, in the process environment
    and in the [.env] file alike, both stage constructors raise
    [EnvironmentError] after the critical log record; [run_agentic_rag] raises
    it from [setup_orchestrator], before the session is created and before
    the workflow is started on the query; the script reports it as a fatal
    startup error and ends. *)
Theorem missing_credential_is_fatal `{PyFormat} `{ADK}
    (dotenv environ : gmap string string) (query : string) :
  environ !! "GROQ_API_KEY" = None →
  dotenv !! "GROQ_API_KEY" = None →
  initialize_planner_agent dotenv environ =
    ([Log PlannerAgent CRITICAL "GROQ_API_KEY is missing from environment variables."],
     Raises (EnvironmentError "GROQ_API_KEY not found. Ensure your .env file is configured.")) ∧
  initialize_synthesizer_agent dotenv environ =
    ([Log SynthesizerAgent CRITICAL
        "GROQ_API_KEY is missing. Synthesizer cannot function without LLM access."],
     Raises (EnvironmentError "GROQ_API_KEY not found in environment.")) ∧
  run_agentic_rag dotenv environ query =
    ([Log PlannerAgent CRITICAL "GROQ_API_KEY is missing from environment variables."],
     Raises (EnvironmentError "GROQ_API_KEY not found. Ensure your .env file is configured.")) ∧
  main dotenv environ query =
    ([Log PlannerAgent CRITICAL "GROQ_API_KEY is missing from environment variables.";
      Stdout "Fatal Startup Error: GROQ_API_KEY not found. Ensure your .env file is configured."],
     Normal tt).
Proof.
  intros Henv Hfile.
  pose proof (getenv_absent _ _ _ Henv Hfile) as Hkey.
  assert (Hplanner : initialize_planner_agent dotenv environ =
    ([Log PlannerAgent CRITICAL "GROQ_API_KEY is missing from environment variables."],
     Raises (EnvironmentError "GROQ_API_KEY not found. Ensure your .env file is configured."))).
  { unfold initialize_planner_agent. by rewrite Hkey. }
  assert (Hrun : run_agentic_rag dotenv environ query =
    ([Log PlannerAgent CRITICAL "GROQ_API_KEY is missing from environment variables."],
     Raises (EnvironmentError "GROQ_API_KEY not found. Ensure your .env file is configured."))).
  { unfold run_agentic_rag, setup_orchestrator. by rewrite Hplanner. }
  repeat split; [done| |done|].
  - unfold initialize_synthesizer_agent. by rewrite Hkey.
  - unfold main. by rewrite Hrun.
Qed.

Lemma missing_credential_is_fatal_witness :
  @main example_format (scripted_adk ∅) ∅ {[ "HOME" := "/root" ]} "What is Amazon S3?" =
    ([Log PlannerAgent CRITICAL "GROQ_API_KEY is missing from environment variables.";
      Stdout "Fatal Startup Error: GROQ_API_KEY not found. Ensure your .env file is configured."],
     Normal tt).
Proof.
  apply (@missing_credential_is_fatal example_format (scripted_adk ∅)
           ∅ {[ "HOME" := "/root" ]} "What is Amazon S3?"); reflexivity.
Defined.

(** The agent a successful [initialize_planner_agent] returns. *)
Lemma initialize_planner_agent_Normal `{PyFormat} `{ADK}
    (dotenv environ : gmap string string) planner :
  result (initialize_planner_agent dotenv environ) = Normal planner →
  ∃ key, planner = planner_with key.
Proof.
  unfold initialize_planner_agent, planner_with.
  destruct (truthy _); simpl; [|done].
  set (cfg := mkAgent _ _ _ _ _ _ _).
  unfold try_except, result. simpl.
  destruct (Agent_init cfg) as [[]|e]; simpl.
  - intros [= <-]. by eexists.
  - by destruct (is_Exception e).
Qed.

(** The agent a successful [initialize_synthesizer_agent] returns. *)
Lemma initialize_synthesizer_agent_Normal `{PyFormat} `{ADK}
    (dotenv environ : gmap string string) synthesizer :
  result (initialize_synthesizer_agent dotenv environ) = Normal synthesizer →
  ∃ key, synthesizer = synthesizer_with key.
Proof.
  unfold initialize_synthesizer_agent, synthesizer_with.
  destruct (truthy _); simpl; [|done].
  set (cfg := mkAgent _ _ _ _ _ _ _).
  unfold try_except, result. simpl.
  destruct (Agent_init cfg) as [[]|e]; simpl.
  - intros [= <-]. by eexists.
  - by destruct (is_Exception e).
Qed.

(** The Synthesizer's instruction holds the refusal sentence, word for word. *)
Lemma synthesizer_instruction_quotes_refusal :
  String.substring 772 (String.length refusal_sentence) synthesizer_instruction
    = refusal_sentence.
Proof. by vm_compute. Qed.

(** The root agent lists the planner first and the synthesizer second, each
    with its own key in the session state. *)
Lemma setup_orchestrator_Normal `{PyFormat} `{ADK}
    (dotenv environ : gmap string string) root :
  result (setup_orchestrator dotenv environ) = Normal root →
  ∃ key1 key2,
    sub_agents root = [planner_with key1; synthesizer_with key2] ∧
    output_key <$> sub_agents root = ["planner_plan"; "final_response"].
Proof.
  unfold setup_orchestrator.
  destruct (initialize_planner_agent dotenv environ) as [evs1 [planner|e]] eqn:Hp; [|done].
  rewrite Run_bind_Normal.
  destruct (initialize_synthesizer_agent dotenv environ) as [evs2 [synthesizer|e]] eqn:Hs;
    [|done].
  intros [= <-]. simpl.
  destruct (initialize_planner_agent_Normal dotenv environ planner) as [key1 ->];
    [by rewrite Hp|].
  destruct (initialize_synthesizer_agent_Normal dotenv environ synthesizer) as [key2 ->];
    [by rewrite Hs|].
  by exists key1, key2.
Qed.

(** * Properties of the final output *)

Lemma py_print_can `{PyFormat} (text : string) :
  can_print text = true → py_print text = emit (Stdout text).
Proof. intros Hcan. unfold py_print. by rewrite Hcan. Qed.

Lemma py_print_ascii `{PyFormat} (text : string) :
  is_ascii text = true → py_print text = emit (Stdout text).
Proof. intros Hascii. apply py_print_can. unfold can_print. by rewrite Hascii. Qed.

Lemma py_print_cannot `{PyFormat} (text : string) :
  can_print text = false →
  py_print text = raise (Exception "UnicodeEncodeError" (stdout_error text)).
Proof. intros Hcan. unfold py_print. by rewrite Hcan. Qed.

(** The lines shown for a session state that is not empty, when standard
    output can encode the Planner's line and the answer. *)
Lemma final_output_shown `{PyFormat} (session : Session) :
  state session ≠ ∅ →
  can_print ("Planner Result: " +:+ py_str (dict_get "planner_plan" PyNone (state session)))
    = true →
  can_print (py_str (dict_get "final_response" (PyStr "No response generated.")
                       (state session))) = true →
  final_output (Some session) =
    ([Stdout (nl +:+ str_repeat "=" 50);
      Stdout "AGENTIC TRACE (OBSERVABILITY)";
      Stdout (str_repeat "-" 50);
      Stdout ("Planner Result: " +:+ py_str (dict_get "planner_plan" PyNone (state session)));
      Stdout (str_repeat "=" 50 +:+ nl);
      Stdout "FINAL ANSWER:";
      Stdout (py_str (dict_get "final_response" (PyStr "No response generated.")
                        (state session)))],
     Normal tt).
Proof.
  intros Hstate Hplanner Hanswer. unfold final_output. rewrite bool_decide_true by done.
  rewrite (py_print_ascii (nl +:+ str_repeat "=" 50)) by done.
  rewrite (py_print_ascii "AGENTIC TRACE (OBSERVABILITY)") by done.
  rewrite (py_print_ascii (str_repeat "-" 50)) by done.
  rewrite (py_print_ascii (str_repeat "=" 50 +:+ nl)) by done.
  rewrite (py_print_ascii "FINAL ANSWER:") by done.
  by rewrite (py_print_can _ Hplanner), (py_print_can _ Hanswer).
Qed.

(** When standard output cannot encode the Planner's line, the output ends
    before it, with the exception. *)
Lemma final_output_planner_line_fails `{PyFormat} (session : Session) :
  state session ≠ ∅ →
  can_print ("Planner Result: " +:+ py_str (dict_get "planner_plan" PyNone (state session)))
    = false →
  final_output (Some session) =
    ([Stdout (nl +:+ str_repeat "=" 50);
      Stdout "AGENTIC TRACE (OBSERVABILITY)";
      Stdout (str_repeat "-" 50)],
     Raises (Exception "UnicodeEncodeError"
               (stdout_error ("Planner Result: " +:+
                              py_str (dict_get "planner_plan" PyNone (state session)))))).
Proof.
  intros Hstate Hplanner. unfold final_output. rewrite bool_decide_true by done.
  rewrite (py_print_ascii (nl +:+ str_repeat "=" 50)) by done.
  rewrite (py_print_ascii "AGENTIC TRACE (OBSERVABILITY)") by done.
  rewrite (py_print_ascii (str_repeat "-" 50)) by done.
  by rewrite (py_print_cannot _ Hplanner).
Qed.

(** A run past [setup_orchestrator]: the record of the session creation, the
    start banner, then what the workflow's outcome leads to. *)
Lemma run_agentic_rag_started `{PyFormat} `{ADK}
    (dotenv environ : gmap string string) (query : string) (root : SequentialAgent)
    (service service' : SessionService) (created ran : outcome unit) :
  result (setup_orchestrator dotenv environ) = Normal root →
  create_session APP_NAME USER_ID SESSION_ID InMemorySessionService = (service, created) →
  created ≠ Raises KeyboardInterrupt →
  run_async root APP_NAME USER_ID SESSION_ID query service = (service', ran) →
  run_agentic_rag dotenv environ query =
    let ended :=
      match ran with
      | Normal _ => final_output (get_session APP_NAME USER_ID SESSION_ID service')
      | Raises e =>
          if is_Exception e
          then emit (Log MainRunner ERROR ("Execution Error: " +:+ exn_str e))
          else raise e
      end in
    (events (setup_orchestrator dotenv environ)
       ++ [match created with
           | Normal _ => Log MainRunner INFO "Session session_001 initialized."
           | Raises e =>
               Log MainRunner WARNING
                 ("Session already exists or could not be created: " +:+ exn_str e)
           end;
           Stdout (nl +:+ "--- Starting Agentic Workflow ---" +:+ nl)]
       ++ events ended,
     result ended).
Proof.
  intros Hsetup Hcreate Hcreated Hrun. unfold run_agentic_rag.
  destruct (setup_orchestrator dotenv environ) as [evs [root'|e]]; simplify_eq/=.
  rewrite Hcreate, Run_bind_Normal.
  set (record := match created with Normal _ => _ | Raises _ => _ end).
  set (session_part := try_except _ _).
  assert (Hpart : session_part = ([record], Normal tt)).
  { subst session_part record. unfold try_except.
    destruct created as [[]|e]; simpl; [done|].
    destruct e; simpl; [done..|by destruct Hcreated]. }
  rewrite Hpart, (py_print_ascii (nl +:+ "--- Starting Agentic Workflow ---" +:+ nl)) by done.
  rewrite !Run_bind_Normal, Hrun. unfold events, result. simpl.
  by destruct ran as [[]|e].
Qed.




(** * Further properties of the plan validator *)

Lemma validate_items_count loc i items :
  length (validate_items loc i items).1
    = length (filter (λ v, is_PyStr v = false) items).
Proof.
  revert i. induction items as [|v items IH]; intros i; [done|].
  simpl. specialize (IH (S i)).
  destruct (validate_items loc (S i) items) as [e2 ss]. simpl in *.
  destruct v; simpl; rewrite ?filter_cons; simpl;
    repeat case_decide; simpl; try done; by rewrite IH.
Qed.

Lemma validate_items_None loc i items errs :
  validate_items loc i items = (errs, None) → errs ≠ [].
Proof.
  revert i errs. induction items as [|v items IH]; intros i errs; simpl; [done|].
  destruct (validate_items loc (S i) items) as [e2 [ss|]] eqn:Hrest.
  - destruct v; simpl; intros [= <-]; done.
  - destruct v; simpl; intros [= <-]; try done. by eapply IH.
Qed.

Lemma required_query_type raw_data :
  let r := required "query_type" raw_data validate_str in
  length r.1 = match raw_data !! "query_type" with
               | Some (PyStr _) => 0
               | _ => 1
               end ∧
  (r.2 = None → r.1 ≠ []).
Proof.
  unfold required. by destruct (raw_data !! "query_type") as [[]|].
Qed.

Lemma required_sub_queries raw_data :
  let r := required "sub_queries" raw_data validate_list_str in
  length r.1 = match raw_data !! "sub_queries" with
               | Some (PyList items) => length (filter (λ v, is_PyStr v = false) items)
               | _ => 1
               end ∧
  (r.2 = None → r.1 ≠ []).
Proof.
  unfold required, validate_list_str.
  destruct (raw_data !! "sub_queries") as [[]|]; simpl; try done.
  split; [apply validate_items_count|].
  destruct (validate_items _ _ _) as [errs ss] eqn:Hitems. simpl.
  intros ->. by eapply validate_items_None.
Qed.

(** What the constructor raises is a validation error listing one error for
    each mismatch of the mapping. *)
Lemma PlannerPlan_init_Raises raw_data e :
  PlannerPlan_init raw_data = Raises e →
  ∃ errs, e = ValidationError errs ∧ errs ≠ [] ∧ length errs = field_mismatches raw_data.
Proof.
  unfold PlannerPlan_init, field_mismatches.
  destruct (required_query_type raw_data) as [Hlen1 Hnone1].
  destruct (required_sub_queries raw_data) as [Hlen2 Hnone2].
  destruct (required "query_type" raw_data validate_str) as [e1 qt].
  destruct (required "sub_queries" raw_data validate_list_str) as [e2 sq].
  simpl in *. rewrite <- Hlen1, <- Hlen2, <- length_app.
  destruct qt as [qt|], sq as [sq|]; [done|..]; intros [= <-];
    (eexists; split; [done|]; split; [|done]);
    intros [??]%app_eq_nil; naive_solver.
Qed.

(** X1. Every call of the validator logs at most one record and goes one of
    three ways: the success record, at level INFO, with the plan's category
    and the plan returned; the schema-mismatch record, at level ERROR, with
    the serialized errors and [None] returned; or, when the serialization of
    the errors raises, no record at all and that exception raised.  The
    record for an unexpected error is never logged. *)
Theorem safe_validate_plan_logs_one_record `{PyFormat} (raw_data : PyMapping) :
  (∃ plan,
     safe_validate_plan raw_data =
       ([Log PlannerAgent INFO
           ("Validation Success: Query classified as '" +:+ query_type plan +:+ "'")],
        Normal (Some plan))) ∨
  (∃ errs report,
     PlannerPlan_init raw_data = Raises (ValidationError errs) ∧
     ve_json errs = Normal report ∧
     safe_validate_plan raw_data =
       ([Log PlannerAgent ERROR
           ("Schema Mismatch: The LLM returned incompatible JSON. Errors: " +:+ report)],
        Normal None)) ∨
  (∃ errs e,
     PlannerPlan_init raw_data = Raises (ValidationError errs) ∧
     ve_json errs = Raises e ∧
     safe_validate_plan raw_data = ([], Raises e)).
Proof.
  destruct (PlannerPlan_init raw_data) as [plan|e] eqn:Hinit.
  - left. exists plan. by apply safe_validate_plan_accepts.
  - right. destruct (PlannerPlan_init_Raises _ _ Hinit) as (errs & -> & _).
    rewrite (safe_validate_plan_rejects _ _ Hinit).
    destruct (ve_json errs) as [report|e] eqn:Hjson; [left|right]; eauto.
Qed.

(** X2. When the validator returns [None], the errors it logs are as many as
    the mismatches of the mapping, all of them and not only the first: one
    for each field that is missing or of the wrong type and one for each item
    of [sub_queries] that is not a string; there is at least one. *)
Theorem validation_failure_lists_every_mismatch `{PyFormat} (raw_data : PyMapping) :
  result (safe_validate_plan raw_data) = Normal None →
  ∃ errs report,
    ve_json errs = Normal report ∧
    events (safe_validate_plan raw_data) =
      [Log PlannerAgent ERROR
         ("Schema Mismatch: The LLM returned incompatible JSON. Errors: " +:+ report)] ∧
    length errs = field_mismatches raw_data ∧
    0 < length errs.
Proof.
  destruct (PlannerPlan_init raw_data) as [plan|e] eqn:Hinit.
  - by rewrite (safe_validate_plan_accepts _ _ Hinit).
  - destruct (PlannerPlan_init_Raises _ _ Hinit) as (errs & -> & Hne & Hlen).
    rewrite (safe_validate_plan_rejects _ _ Hinit).
    destruct (ve_json errs) as [report|e] eqn:Hjson; [|done]. intros _.
    exists errs, report. split; [done|]. split; [done|]. split; [done|].
    destruct errs; [done|simpl; lia].
Qed.

Lemma validation_failure_lists_every_mismatch_witness :
  ∃ errs report,
    ve_json errs = Normal report ∧
    events (safe_validate_plan
              {[ "query_type" := PyInt 7;
                 "sub_queries" := PyList [PyStr "s3"; PyNone; PyBool true] ]}) =
      [Log PlannerAgent ERROR
         ("Schema Mismatch: The LLM returned incompatible JSON. Errors: " +:+ report)] ∧
    length errs = 3 ∧
    0 < length errs.
Proof.
  change 3 with (field_mismatches
                   {[ "query_type" := PyInt 7;
                      "sub_queries" := PyList [PyStr "s3"; PyNone; PyBool true] ]}).
  apply (validation_failure_lists_every_mismatch
           {[ "query_type" := PyInt 7;
              "sub_queries" := PyList [PyStr "s3"; PyNone; PyBool true] ]}).
  reflexivity.
Defined.

Lemma PlannerPlan_init_insert_Normal raw_data key v plan :
  key ≠ "query_type" → key ≠ "sub_queries" →
  PlannerPlan_init (<[key := v]> raw_data) = Normal plan
  ↔ PlannerPlan_init raw_data = Normal plan.
Proof.
  intros Hq Hs. rewrite !PlannerPlan_init_Normal. unfold is_plan_mapping.
  by rewrite !lookup_insert_ne.
Qed.

(** X3. A key other than the two fields has no part in the plan: adding it
    to the mapping, or changing its value, changes neither whether a plan is
    returned nor which; and for a mapping that gives a plan, the call with
    the key returns and logs the same as the call without. *)
Theorem safe_validate_plan_ignores_other_keys `{PyFormat}
    (raw_data : PyMapping) (key : string) (v : PyValue) :
  key ≠ "query_type" → key ≠ "sub_queries" →
  (∀ plan, result (safe_validate_plan (<[key := v]> raw_data)) = Normal (Some plan)
           ↔ result (safe_validate_plan raw_data) = Normal (Some plan)) ∧
  (∀ plan, result (safe_validate_plan raw_data) = Normal (Some plan)
           → safe_validate_plan (<[key := v]> raw_data) = safe_validate_plan raw_data).
Proof.
  intros Hq Hs. split.
  - intros plan. rewrite !safe_validate_plan_Some, <- !PlannerPlan_init_Normal.
    by apply PlannerPlan_init_insert_Normal.
  - intros plan Hplan%safe_validate_plan_Some%PlannerPlan_init_Normal.
    rewrite (safe_validate_plan_accepts _ _ Hplan).
    apply safe_validate_plan_accepts. by apply PlannerPlan_init_insert_Normal.
Qed.

Lemma safe_validate_plan_ignores_other_keys_witness :
  safe_validate_plan
    (<["confidence" := PyFloat "0.9"]>
       {[ "query_type" := PyStr "uses"; "sub_queries" := PyList [PyStr "bedrock"] ]})
  = safe_validate_plan
      {[ "query_type" := PyStr "uses"; "sub_queries" := PyList [PyStr "bedrock"] ]}.
Proof.
  apply (proj2 (safe_validate_plan_ignores_other_keys
                  {[ "query_type" := PyStr "uses"; "sub_queries" := PyList [PyStr "bedrock"] ]}
                  "confidence" (PyFloat "0.9") ltac:(discriminate) ltac:(discriminate))
           (mkPlan "uses" ["bedrock"])).
  reflexivity.
Defined.

(** X4. The field mapping of an accepted plan is the input cut down to the
    two fields: it has these two keys and no other, and it holds under each
    the value the input holds. *)
Theorem accepted_plan_is_input_restricted `{PyFormat}
    (raw_data : PyMapping) (plan : PlannerPlan) :
  result (safe_validate_plan raw_data) = Normal (Some plan) →
  model_dump plan ⊆ raw_data ∧
  dom (model_dump plan) = ({[ "query_type"; "sub_queries" ]} : gset string).
Proof.
  intros [Hqt Hsq]%safe_validate_plan_Some. split.
  - apply map_subseteq_spec. intros key v. unfold model_dump.
    rewrite lookup_insert. case_decide as Hkey; [naive_solver|].
    rewrite lookup_singleton. case_decide; naive_solver.
  - unfold model_dump. by rewrite dom_insert_L, dom_singleton_L.
Qed.

Lemma accepted_plan_is_input_restricted_witness :
  model_dump (mkPlan "uses" ["bedrock"])
    ⊆ <["confidence" := PyFloat "0.9"]>
        {[ "query_type" := PyStr "uses"; "sub_queries" := PyList [PyStr "bedrock"] ]} ∧
  dom (model_dump (mkPlan "uses" ["bedrock"]))
    = ({[ "query_type"; "sub_queries" ]} : gset string).
Proof.
  apply accepted_plan_is_input_restricted.
  apply safe_validate_plan_Some. split; by simplify_map_eq.
Defined.

(** * Further properties of the stage constructors *)

(** The credential is the value of the process environment when the variable
    is set there, and else the value of the [.env] file. *)
Lemma getenv_resolved (dotenv environ : gmap string string) name value :
  environ !! name = Some value ∨ (environ !! name = None ∧ dotenv !! name = Some value) →
  os_getenv name (load_dotenv dotenv environ) = Some value.
Proof.
  unfold os_getenv, load_dotenv. intros [Henv|[Henv Hfile]].
  - by apply lookup_union_Some_l.
  - by rewrite lookup_union_r.
Qed.

Lemma truthy_Some key : key ≠ EmptyString → truthy (Some key) = true.
Proof. intros Hkey. unfold truthy. by rewrite bool_decide_false. Qed.

Lemma initialize_planner_agent_with_key `{PyFormat} `{ADK}
    (dotenv environ : gmap string string) key :
  os_getenv "GROQ_API_KEY" (load_dotenv dotenv environ) = Some key →
  key ≠ EmptyString →
  initialize_planner_agent dotenv environ =
    match Agent_init (planner_with key) with
    | Normal _ =>
        ([Log PlannerAgent INFO "Configuring LLM and output schema for Planner...";
          Log PlannerAgent INFO "Planner Agent successfully initialized."],
         Normal (planner_with key))
    | Raises e =>
        if is_Exception e
        then ([Log PlannerAgent INFO "Configuring LLM and output schema for Planner...";
               Log PlannerAgent ERROR
                 ("Failed to initialize Planner Agent component: " +:+ exn_str e)],
              Raises (RuntimeError
                        "Agent initialization aborted due to configuration error." e))
        else ([Log PlannerAgent INFO "Configuring LLM and output schema for Planner..."],
              Raises e)
    end.
Proof.
  intros Hget Hkey. unfold initialize_planner_agent.
  rewrite Hget, (truthy_Some _ Hkey). simpl. fold (planner_with key).
  unfold try_except.
  destruct (Agent_init (planner_with key)) as [[]|e]; simpl; [done|].
  by destruct (is_Exception e).
Qed.

Lemma initialize_synthesizer_agent_with_key `{PyFormat} `{ADK}
    (dotenv environ : gmap string string) key :
  os_getenv "GROQ_API_KEY" (load_dotenv dotenv environ) = Some key →
  key ≠ EmptyString →
  initialize_synthesizer_agent dotenv environ =
    match Agent_init (synthesizer_with key) with
    | Normal _ =>
        ([Log SynthesizerAgent INFO
            "Initializing Synthesizer Agent with tool-calling capabilities...";
          Log SynthesizerAgent INFO
            "Synthesizer Agent successfully initialized with retriever_tool."],
         Normal (synthesizer_with key))
    | Raises e =>
        if is_Exception e
        then ([Log SynthesizerAgent INFO
                 "Initializing Synthesizer Agent with tool-calling capabilities...";
               Log SynthesizerAgent ERROR
                 ("Critical error during Synthesizer Agent setup: " +:+ exn_str e)],
              Raises (RuntimeError "Synthesizer Agent failed to initialize." e))
        else ([Log SynthesizerAgent INFO
                 "Initializing Synthesizer Agent with tool-calling capabilities..."],
              Raises e)
    end.
Proof.
  intros Hget Hkey. unfold initialize_synthesizer_agent.
  rewrite Hget, (truthy_Some _ Hkey). simpl. fold (synthesizer_with key).
  unfold try_except.
  destruct (Agent_init (synthesizer_with key)) as [[]|e]; simpl; [done|].
  by destruct (is_Exception e).
Qed.

(** X5. A [GROQ_API_KEY] that is set to the empty string in the process
    environment counts as missing, whatever the [.env] file holds for it:
    both constructors log the critical record and raise [EnvironmentError]. *)
Theorem empty_credential_is_fatal `{PyFormat} `{ADK}
    (dotenv environ : gmap string string) :
  environ !! "GROQ_API_KEY" = Some EmptyString →
  initialize_planner_agent dotenv environ =
    ([Log PlannerAgent CRITICAL "GROQ_API_KEY is missing from environment variables."],
     Raises (EnvironmentError "GROQ_API_KEY not found. Ensure your .env file is configured.")) ∧
  initialize_synthesizer_agent dotenv environ =
    ([Log SynthesizerAgent CRITICAL
        "GROQ_API_KEY is missing. Synthesizer cannot function without LLM access."],
     Raises (EnvironmentError "GROQ_API_KEY not found in environment.")).
Proof.
  intros Henv.
  assert (Hget : os_getenv "GROQ_API_KEY" (load_dotenv dotenv environ) = Some EmptyString)
    by (apply getenv_resolved; by left).
  unfold initialize_planner_agent, initialize_synthesizer_agent. by rewrite Hget.
Qed.

Lemma empty_credential_is_fatal_witness :
  @initialize_planner_agent example_format (scripted_adk ∅)
    {[ "GROQ_API_KEY" := "gsk_example" ]} {[ "GROQ_API_KEY" := EmptyString ]} =
    ([Log PlannerAgent CRITICAL "GROQ_API_KEY is missing from environment variables."],
     Raises (EnvironmentError "GROQ_API_KEY not found. Ensure your .env file is configured.")).
Proof.
  apply (@empty_credential_is_fatal example_format (scripted_adk ∅)
           {[ "GROQ_API_KEY" := "gsk_example" ]} {[ "GROQ_API_KEY" := EmptyString ]}).
  reflexivity.
Defined.

(** X6. With a credential that is not empty, taken from the process
    environment when it is set there and else from the [.env] file, and
    with both configurations accepted, [setup_orchestrator] returns the root
    agent [AWSRagRootAgent] whose sub-agents are the planner, then the
    synthesizer, both built with that one credential; the planner is
    configured, with its two records logged, before the synthesizer. *)
Theorem setup_orchestrator_builds_pipeline `{PyFormat} `{ADK}
    (dotenv environ : gmap string string) (key : string) :
  environ !! "GROQ_API_KEY" = Some key ∨
    (environ !! "GROQ_API_KEY" = None ∧ dotenv !! "GROQ_API_KEY" = Some key) →
  key ≠ EmptyString →
  Agent_init (planner_with key) = Normal tt →
  Agent_init (synthesizer_with key) = Normal tt →
  setup_orchestrator dotenv environ =
    ([Log PlannerAgent INFO "Configuring LLM and output schema for Planner...";
      Log PlannerAgent INFO "Planner Agent successfully initialized.";
      Log SynthesizerAgent INFO
        "Initializing Synthesizer Agent with tool-calling capabilities...";
      Log SynthesizerAgent INFO
        "Synthesizer Agent successfully initialized with retriever_tool."],
     Normal {| seq_name := "AWSRagRootAgent";
               sub_agents := [planner_with key; synthesizer_with key];
               seq_description :=
                 "Sequential pipeline for AWS RAG: Planning followed by Synthesized Answering."
            |}).
Proof.
  intros Hget%getenv_resolved Hkey Hplanner Hsynthesizer. unfold setup_orchestrator.
  rewrite (initialize_planner_agent_with_key _ _ _ Hget Hkey), Hplanner.
  by rewrite (initialize_synthesizer_agent_with_key _ _ _ Hget Hkey), Hsynthesizer.
Qed.

Lemma setup_orchestrator_builds_pipeline_witness :
  result (@setup_orchestrator example_format (scripted_adk ∅)
            {[ "GROQ_API_KEY" := "gsk_from_file" ]} {[ "HOME" := "/root" ]}) =
    Normal {| seq_name := "AWSRagRootAgent";
              sub_agents := [planner_with "gsk_from_file"; synthesizer_with "gsk_from_file"];
              seq_description :=
                "Sequential pipeline for AWS RAG: Planning followed by Synthesized Answering."
           |}.
Proof.
  rewrite (@setup_orchestrator_builds_pipeline example_format (scripted_adk ∅)
             {[ "GROQ_API_KEY" := "gsk_from_file" ]} {[ "HOME" := "/root" ]}
             "gsk_from_file").
  - reflexivity.
  - right. split; reflexivity.
  - discriminate.
  - reflexivity.
  - reflexivity.
Defined.

(** X7. A configuration the agent constructor rejects for the planner is
    logged and raised again as a [RuntimeError] whose cause is the rejection;
    [setup_orchestrator] then raises that error without initializing the
    synthesizer, of which no record is logged. *)
Theorem planner_configuration_error_is_wrapped `{PyFormat} `{ADK}
    (dotenv environ : gmap string string) (key : string) (e : exn) :
  environ !! "GROQ_API_KEY" = Some key ∨
    (environ !! "GROQ_API_KEY" = None ∧ dotenv !! "GROQ_API_KEY" = Some key) →
  key ≠ EmptyString →
  Agent_init (planner_with key) = Raises e →
  is_Exception e = true →
  let raised :=
    ([Log PlannerAgent INFO "Configuring LLM and output schema for Planner...";
      Log PlannerAgent ERROR ("Failed to initialize Planner Agent component: " +:+ exn_str e)],
     Raises (RuntimeError "Agent initialization aborted due to configuration error." e)) in
  initialize_planner_agent dotenv environ = raised ∧
  setup_orchestrator dotenv environ = (raised.1, Raises (RuntimeError
    "Agent initialization aborted due to configuration error." e)).
Proof.
  intros Hget%getenv_resolved Hkey Hinit He raised.
  assert (Hplanner : initialize_planner_agent dotenv environ = raised)
    by (by rewrite (initialize_planner_agent_with_key _ _ _ Hget Hkey), Hinit, He).
  split; [done|]. unfold setup_orchestrator. by rewrite Hplanner.
Qed.

Lemma planner_configuration_error_is_wrapped_witness :
  let e := Exception "ValueError" "unknown model" in
  result (@setup_orchestrator example_format
            (faulty_adk (λ _, Raises e) (Normal tt) (Normal tt) None) ∅ example_environ) =
    Raises (RuntimeError "Agent initialization aborted due to configuration error." e).
Proof.
  intros e.
  refine (f_equal snd (proj2 (@planner_configuration_error_is_wrapped example_format
           (faulty_adk (λ _, Raises e) (Normal tt) (Normal tt) None) ∅ example_environ
           "gsk_example" e _ _ _ _))).
  - left. reflexivity.
  - discriminate.
  - reflexivity.
  - reflexivity.
Defined.

(** X8. A configuration the agent constructor rejects for the synthesizer,
    after the planner was built, is logged and raised again as a
    [RuntimeError] whose cause is the rejection, and [setup_orchestrator]
    raises it: no root agent is returned with the planner alone. *)
Theorem synthesizer_configuration_error_is_wrapped `{PyFormat} `{ADK}
    (dotenv environ : gmap string string) (key : string) (e : exn) :
  environ !! "GROQ_API_KEY" = Some key ∨
    (environ !! "GROQ_API_KEY" = None ∧ dotenv !! "GROQ_API_KEY" = Some key) →
  key ≠ EmptyString →
  Agent_init (planner_with key) = Normal tt →
  Agent_init (synthesizer_with key) = Raises e →
  is_Exception e = true →
  setup_orchestrator dotenv environ =
    ([Log PlannerAgent INFO "Configuring LLM and output schema for Planner...";
      Log PlannerAgent INFO "Planner Agent successfully initialized.";
      Log SynthesizerAgent INFO
        "Initializing Synthesizer Agent with tool-calling capabilities...";
      Log SynthesizerAgent ERROR
        ("Critical error during Synthesizer Agent setup: " +:+ exn_str e)],
     Raises (RuntimeError "Synthesizer Agent failed to initialize." e)).
Proof.
  intros Hget%getenv_resolved Hkey Hplanner Hsynthesizer He. unfold setup_orchestrator.
  rewrite (initialize_planner_agent_with_key _ _ _ Hget Hkey), Hplanner.
  by rewrite (initialize_synthesizer_agent_with_key _ _ _ Hget Hkey), Hsynthesizer, He.
Qed.

Lemma synthesizer_configuration_error_is_wrapped_witness :
  let e := Exception "ValueError" "unknown tool" in
  let init := λ agent : Agent, if bool_decide (tools agent = []) then Normal tt else Raises e in
  result (@setup_orchestrator example_format
            (faulty_adk init (Normal tt) (Normal tt) None) ∅ example_environ) =
    Raises (RuntimeError "Synthesizer Agent failed to initialize." e).
Proof.
  intros e init.
  rewrite (@synthesizer_configuration_error_is_wrapped example_format
             (faulty_adk init (Normal tt) (Normal tt) None) ∅ example_environ
             "gsk_example" e).
  - reflexivity.
  - left. reflexivity.
  - discriminate.
  - reflexivity.
  - reflexivity.
  - reflexivity.
Defined.

(** * Further properties of the run *)

(** X9. An error of the workflow is logged and goes no further: when the
    runner raises an exception of class [Exception], the run logs the
    execution error right after the start banner and returns; neither the
    trace nor a final answer is printed, and the session is not fetched. *)
Theorem execution_error_is_logged_and_ends_run `{PyFormat} `{ADK}
    (dotenv environ : gmap string string) (query : string) (root : SequentialAgent)
    (service service' : SessionService) (created : outcome unit) (e : exn) :
  result (setup_orchestrator dotenv environ) = Normal root →
  create_session APP_NAME USER_ID SESSION_ID InMemorySessionService = (service, created) →
  created ≠ Raises KeyboardInterrupt →
  run_async root APP_NAME USER_ID SESSION_ID query service = (service', Raises e) →
  is_Exception e = true →
  result (run_agentic_rag dotenv environ query) = Normal tt ∧
  ∃ before,
    events (run_agentic_rag dotenv environ query) =
      before ++ [Stdout (nl +:+ "--- Starting Agentic Workflow ---" +:+ nl);
                 Log MainRunner ERROR ("Execution Error: " +:+ exn_str e)].
Proof.
  intros Hsetup Hcreate Hcreated Hrun He.
  rewrite (run_agentic_rag_started _ _ _ _ _ _ _ _ Hsetup Hcreate Hcreated Hrun).
  rewrite He. split; [done|]. unfold events. simpl.
  eexists (_ ++ [_]). by rewrite <- (assoc_L (++)).
Qed.

Lemma execution_error_is_logged_and_ends_run_witness :
  let adk := faulty_adk (λ _, Normal tt) (Normal tt)
               (Raises (Exception "APIConnectionError" "connection refused")) (Some ∅) in
  let run := @run_agentic_rag example_format adk ∅ example_environ "What is Amazon S3?" in
  result run = Normal tt ∧
  ∃ before,
    events run =
      before ++ [Stdout (nl +:+ "--- Starting Agentic Workflow ---" +:+ nl);
                 Log MainRunner ERROR "Execution Error: connection refused"].
Proof.
  intros adk run.
  refine (@execution_error_is_logged_and_ends_run example_format adk
            ∅ example_environ "What is Amazon S3?" _
            (<[(APP_NAME, USER_ID, SESSION_ID) := mkSession ∅]> ∅)
            (<[(APP_NAME, USER_ID, SESSION_ID) := mkSession ∅]>
               (<[(APP_NAME, USER_ID, SESSION_ID) := mkSession ∅]> ∅))
            (Normal tt) (Exception "APIConnectionError" "connection refused") _ _ _ _ _).
  - reflexivity.
  - reflexivity.
  - discriminate.
  - reflexivity.
  - reflexivity.
Defined.

(** X10. An interruption of the workflow is not taken for an execution
    error: when the runner raises [KeyboardInterrupt], [run_agentic_rag]
    raises it in turn, with nothing logged after the start banner, and the
    script prints that the process was interrupted and ends. *)
Theorem interrupt_during_workflow_is_reported `{PyFormat} `{ADK}
    (dotenv environ : gmap string string) (query : string) (root : SequentialAgent)
    (service service' : SessionService) (created : outcome unit) :
  result (setup_orchestrator dotenv environ) = Normal root →
  create_session APP_NAME USER_ID SESSION_ID InMemorySessionService = (service, created) →
  created ≠ Raises KeyboardInterrupt →
  run_async root APP_NAME USER_ID SESSION_ID query service
    = (service', Raises KeyboardInterrupt) →
  result (run_agentic_rag dotenv environ query) = Raises KeyboardInterrupt ∧
  last (events (run_agentic_rag dotenv environ query))
    = Some (Stdout (nl +:+ "--- Starting Agentic Workflow ---" +:+ nl)) ∧
  main dotenv environ query =
    (events (run_agentic_rag dotenv environ query)
       ++ [Stdout (nl +:+ "Process interrupted by user.")],
     Normal tt).
Proof.
  intros Hsetup Hcreate Hcreated Hrun. unfold main.
  rewrite (run_agentic_rag_started _ _ _ _ _ _ _ _ Hsetup Hcreate Hcreated Hrun).
  unfold events, result. simpl. split; [done|]. split; [|done].
  by rewrite last_app.
Qed.

Lemma interrupt_during_workflow_is_reported_witness :
  let adk := faulty_adk (λ _, Normal tt) (Normal tt) (Raises KeyboardInterrupt) (Some ∅) in
  result (@main example_format adk ∅ example_environ "What is Amazon S3?") = Normal tt.
Proof.
  intros adk.
  refine (f_equal snd (proj2 (proj2
    (@interrupt_during_workflow_is_reported example_format adk
       ∅ example_environ "What is Amazon S3?" _
       (<[(APP_NAME, USER_ID, SESSION_ID) := mkSession ∅]> ∅)
       (<[(APP_NAME, USER_ID, SESSION_ID) := mkSession ∅]>
          (<[(APP_NAME, USER_ID, SESSION_ID) := mkSession ∅]> ∅))
       (Normal tt) _ _ _ _)))).
  - reflexivity.
  - reflexivity.
  - discriminate.
  - reflexivity.
Defined.

(** X11. A session that cannot be created does not stop the run: the
    exception, of class [Exception], is logged as a warning, the start banner
    follows and the workflow is run all the same, on the service as the
    failed creation left it. *)
Theorem session_creation_failure_is_a_warning `{PyFormat} `{ADK}
    (dotenv environ : gmap string string) (query : string) (root : SequentialAgent)
    (service service' : SessionService) (ran : outcome unit) (e : exn) :
  result (setup_orchestrator dotenv environ) = Normal root →
  create_session APP_NAME USER_ID SESSION_ID InMemorySessionService = (service, Raises e) →
  is_Exception e = true →
  run_async root APP_NAME USER_ID SESSION_ID query service = (service', ran) →
  ∃ after,
    events (run_agentic_rag dotenv environ query) =
      events (setup_orchestrator dotenv environ)
        ++ [Log MainRunner WARNING
              ("Session already exists or could not be created: " +:+ exn_str e);
            Stdout (nl +:+ "--- Starting Agentic Workflow ---" +:+ nl)]
        ++ after ∧
    (ran = Normal tt →
     after = events (final_output (get_session APP_NAME USER_ID SESSION_ID service')) ∧
     result (run_agentic_rag dotenv environ query) =
       result (final_output (get_session APP_NAME USER_ID SESSION_ID service'))).
Proof.
  intros Hsetup Hcreate He Hrun.
  assert (Hcreated : Raises e ≠ (Raises KeyboardInterrupt : outcome unit))
    by (intros [= ->]; done).
  rewrite (run_agentic_rag_started _ _ _ _ _ _ _ _ Hsetup Hcreate Hcreated Hrun).
  eexists. split; [done|]. by intros ->.
Qed.

Lemma session_creation_failure_is_a_warning_witness :
  let adk := faulty_adk (λ _, Normal tt)
               (Raises (Exception "AlreadyExistsError" "session_001"))
               (Normal tt) (Some {[ "final_response" := PyStr "S3 stores objects." ]}) in
  let service' : @SessionService adk :=
    <[(APP_NAME, USER_ID, SESSION_ID) :=
        mkSession {[ "final_response" := PyStr "S3 stores objects." ]}]> ∅ in
  let run := @run_agentic_rag example_format adk ∅ example_environ "What is Amazon S3?" in
  ∃ after,
    events run =
      events (@setup_orchestrator example_format adk ∅ example_environ)
        ++ [Log MainRunner WARNING
              "Session already exists or could not be created: session_001";
            Stdout (nl +:+ "--- Starting Agentic Workflow ---" +:+ nl)]
        ++ after ∧
    ((Normal tt : outcome unit) = Normal tt →
     after = events (@final_output example_format
                       (@get_session adk APP_NAME USER_ID SESSION_ID service')) ∧
     result run = result (@final_output example_format
                            (@get_session adk APP_NAME USER_ID SESSION_ID service'))).
Proof.
  intros adk service' run.
  refine (@session_creation_failure_is_a_warning example_format adk
            ∅ example_environ "What is Amazon S3?" _ ∅ service'
            (Normal tt) (Exception "AlreadyExistsError" "session_001") _ _ _ _).
  - reflexivity.
  - reflexivity.
  - reflexivity.
  - reflexivity.
Defined.

(** X12. The answer is printed as it is: for a run that ends with a
    retrievable session whose state holds a string under [final_response],
    when standard output can encode the Planner's line and that string, the
    last line printed is the string, unchanged. *)
Theorem final_answer_is_printed_verbatim `{PyFormat} `{ADK}
    (dotenv environ : gmap string string) (query : string) (root : SequentialAgent)
    (service service' : SessionService) (created : outcome unit) (session : Session)
    (answer : string) :
  result (setup_orchestrator dotenv environ) = Normal root →
  create_session APP_NAME USER_ID SESSION_ID InMemorySessionService = (service, created) →
  created ≠ Raises KeyboardInterrupt →
  run_async root APP_NAME USER_ID SESSION_ID query service = (service', Normal tt) →
  get_session APP_NAME USER_ID SESSION_ID service' = Some session →
  state session !! "final_response" = Some (PyStr answer) →
  can_print ("Planner Result: " +:+ py_str (dict_get "planner_plan" PyNone (state session)))
    = true →
  can_print answer = true →
  result (run_agentic_rag dotenv environ query) = Normal tt ∧
  ∃ before,
    events (run_agentic_rag dotenv environ query) =
      before ++ [Stdout "FINAL ANSWER:"; Stdout answer].
Proof.
  intros Hsetup Hcreate Hcreated Hrun Hget Hanswer Hplanner Hprint.
  assert (Hstate : state session ≠ ∅).
  { intros Hempty. by rewrite Hempty in Hanswer. }
  assert (Hvalue : dict_get "final_response" (PyStr "No response generated.") (state session)
                   = PyStr answer)
    by (unfold dict_get; by rewrite Hanswer).
  rewrite (run_agentic_rag_started _ _ _ _ _ _ _ _ Hsetup Hcreate Hcreated Hrun).
  rewrite Hget, (final_output_shown _ Hstate Hplanner) by (by rewrite Hvalue).
  rewrite Hvalue. unfold events, result. simpl. split; [done|].
  eexists (_ ++ [_; _; _; _; _; _; _]). by rewrite <- (assoc_L (++)).
Qed.

Lemma final_answer_is_printed_verbatim_witness :
  let adk := scripted_adk {[ "final_response" := PyStr "S3 stores objects. (Source: [Storage])" ]} in
  let run := @run_agentic_rag example_format adk ∅ example_environ "What is Amazon S3?" in
  result run = Normal tt ∧
  ∃ before,
    events run =
      before ++ [Stdout "FINAL ANSWER:"; Stdout "S3 stores objects. (Source: [Storage])"].
Proof.
  intros adk run.
  refine (@final_answer_is_printed_verbatim example_format adk
            ∅ example_environ "What is Amazon S3?" _
            (<[(APP_NAME, USER_ID, SESSION_ID) := mkSession ∅]> ∅)
            (<[(APP_NAME, USER_ID, SESSION_ID) :=
                 mkSession {[ "final_response" :=
                                PyStr "S3 stores objects. (Source: [Storage])" ]}]>
               (<[(APP_NAME, USER_ID, SESSION_ID) := mkSession ∅]> ∅))
            (Normal tt)
            (mkSession {[ "final_response" :=
                            PyStr "S3 stores objects. (Source: [Storage])" ]})
            "S3 stores objects. (Source: [Storage])" _ _ _ _ _ _ _ _).
  - reflexivity.
  - reflexivity.
  - discriminate.
  - reflexivity.
  - simpl. by simplify_map_eq.
  - reflexivity.
  - by vm_compute.
  - by vm_compute.
Defined.

(** X13. Without a session to show, nothing is shown: for a run whose
    workflow ends without an exception and whose session is not found, or is
    found with an empty state, the failure to retrieve the state is logged
    right after the start banner, and neither the trace nor the final answer
    is printed. *)
Theorem missing_or_empty_session_is_logged `{PyFormat} `{ADK}
    (dotenv environ : gmap string string) (query : string) (root : SequentialAgent)
    (service service' : SessionService) (created : outcome unit) :
  result (setup_orchestrator dotenv environ) = Normal root →
  create_session APP_NAME USER_ID SESSION_ID InMemorySessionService = (service, created) →
  created ≠ Raises KeyboardInterrupt →
  run_async root APP_NAME USER_ID SESSION_ID query service = (service', Normal tt) →
  get_session APP_NAME USER_ID SESSION_ID service' = None ∨
    get_session APP_NAME USER_ID SESSION_ID service' = Some (mkSession ∅) →
  result (run_agentic_rag dotenv environ query) = Normal tt ∧
  ∃ before,
    events (run_agentic_rag dotenv environ query) =
      before ++ [Stdout (nl +:+ "--- Starting Agentic Workflow ---" +:+ nl);
                 Log MainRunner ERROR "Failed to retrieve final session state."].
Proof.
  intros Hsetup Hcreate Hcreated Hrun Hget.
  rewrite (run_agentic_rag_started _ _ _ _ _ _ _ _ Hsetup Hcreate Hcreated Hrun).
  assert (Hshown : final_output (get_session APP_NAME USER_ID SESSION_ID service') =
                     ([Log MainRunner ERROR "Failed to retrieve final session state."],
                      Normal tt)).
  { destruct Hget as [->| ->]; [done|]. unfold final_output. simpl.
    by rewrite bool_decide_false by (intros Hne; by apply Hne). }
  rewrite Hshown. unfold events, result. simpl. split; [done|].
  eexists (_ ++ [_]). by rewrite <- (assoc_L (++)).
Qed.

Lemma missing_or_empty_session_is_logged_witness :
  let adk := faulty_adk (λ _, Normal tt) (Normal tt) (Normal tt) None in
  let run := @run_agentic_rag example_format adk ∅ example_environ "What is Amazon S3?" in
  result run = Normal tt ∧
  ∃ before,
    events run =
      before ++ [Stdout (nl +:+ "--- Starting Agentic Workflow ---" +:+ nl);
                 Log MainRunner ERROR "Failed to retrieve final session state."].
Proof.
  intros adk run.
  refine (@missing_or_empty_session_is_logged example_format adk
            ∅ example_environ "What is Amazon S3?" _
            (<[(APP_NAME, USER_ID, SESSION_ID) := mkSession ∅]> ∅)
            (delete (APP_NAME, USER_ID, SESSION_ID)
               (<[(APP_NAME, USER_ID, SESSION_ID) := mkSession ∅]> ∅))
            (Normal tt) _ _ _ _ _).
  - reflexivity.
  - reflexivity.
  - discriminate.
  - reflexivity.
  - left. simpl. by simplify_map_eq.
Defined.

(** X14. What [setup_orchestrator] raises leaves [run_agentic_rag] as it
    is, with nothing logged or printed after it: no session is created and
    the workflow is not started.  When it is of class [Exception] and
    standard output can encode its text, the script prints it as a fatal
    startup error and ends. *)
Theorem setup_failure_is_reported_as_fatal `{PyFormat} `{ADK}
    (dotenv environ : gmap string string) (query : string) (e : exn) :
  result (setup_orchestrator dotenv environ) = Raises e →
  run_agentic_rag dotenv environ query = (events (setup_orchestrator dotenv environ), Raises e) ∧
  (is_Exception e = true →
   can_print ("Fatal Startup Error: " +:+ exn_str e) = true →
   main dotenv environ query =
     (events (setup_orchestrator dotenv environ)
        ++ [Stdout ("Fatal Startup Error: " +:+ exn_str e)],
      Normal tt)).
Proof.
  intros Hsetup.
  assert (Hrun : run_agentic_rag dotenv environ query
                 = (events (setup_orchestrator dotenv environ), Raises e)).
  { unfold run_agentic_rag.
    destruct (setup_orchestrator dotenv environ) as [evs [root|e']]; by simplify_eq/=. }
  split; [done|]. intros He Hprint. unfold main. rewrite Hrun.
  unfold try_except. simpl. rewrite (py_print_can _ Hprint).
  by destruct e.
Qed.

Lemma setup_failure_is_reported_as_fatal_witness :
  let e := RuntimeError "Agent initialization aborted due to configuration error."
             (Exception "ValueError" "unknown model") in
  let adk := faulty_adk (λ _, Raises (Exception "ValueError" "unknown model"))
               (Normal tt) (Normal tt) None in
  @main example_format adk ∅ example_environ "What is Amazon S3?" =
    (events (@setup_orchestrator example_format adk ∅ example_environ)
       ++ [Stdout "Fatal Startup Error: Agent initialization aborted due to configuration error."],
     Normal tt).
Proof.
  intros e adk.
  refine (proj2 (@setup_failure_is_reported_as_fatal example_format adk
                   ∅ example_environ "What is Amazon S3?" e _) _ _).
  - reflexivity.
  - reflexivity.
  - by vm_compute.
Defined.

(** * Properties of the script *)






